(** * sway-autostart-i3ipc: a shallow embedding of [startup.py]

  The script classifies the current moment (work day, weekend), reads
  the [autostarts] section of a YAML document into three command lists,
  runs the blocking lists through a shell and hands the rest to the
  window manager.  Everything the script does to the outside world is
  recorded as an [event]; everything it asks of the outside world is
  answered by an [Env]ironment whose answers may depend on the whole
  history of events.

  What the model takes for granted: [print], [journal.send], [sleep],
  [Connection(...)] and [main_quit()] return normally; a file that
  exists at the configuration path opens and loads; the loaded document
  maps section names to mappings from keys to sequences of strings or
  null.  Levels are integers, as the [journal.LOG_*] constants are. *)

From stdpp Require Import base option list strings gmap pretty.
From Stdlib Require Import ZArith Lia Ascii.

Local Open Scope Z_scope.

(** ** Python bits used by the script *)

Module Py.

(** [x in range(lo, hi)] for an integer [x] (step 1). *)
Definition in_range (x lo hi : Z) : bool := (lo <=? x) && (x <? hi).

(** [a or b] on integers: [a] when it is truthy (non-zero), else [b]. *)
Definition int_or (a b : Z) : Z := if a =? 0 then b else a.

(** The double-quote character, which the messages of the script embed. *)
Definition dq : string := String "034"%char EmptyString.

(** Truthiness of a list and of a string. *)
Definition truthy_list {A} (l : list A) : bool :=
  match l with [] => false | _ => true end.

Definition truthy_str (s : string) : bool :=
  match s with EmptyString => false | _ => true end.

(** [str(n)] of an integer, as an f-string renders it. *)
Definition str_int (n : Z) : string := pretty n.

End Py.

(** ** [datetime]: the fields and the calendar arithmetic of the library *)

Module Datetime.

Record datetime := {
  year : Z; month : Z; day : Z;
  hour : Z; minute : Z; second : Z; microsecond : Z
}.

Definition _is_leap (y : Z) : bool :=
  (y mod 4 =? 0) && (negb (y mod 100 =? 0) || (y mod 400 =? 0)).

Definition _days_before_year (y : Z) : Z :=
  let y := y - 1 in y * 365 + y / 4 - y / 100 + y / 400.

Definition _DAYS_BEFORE_MONTH : list Z :=
  [-1; 0; 31; 59; 90; 120; 151; 181; 212; 243; 273; 304; 334].

Definition _days_before_month (y m : Z) : Z :=
  nth (Z.to_nat m) _DAYS_BEFORE_MONTH 0
  + (if (2 <? m) && _is_leap y then 1 else 0).

Definition _ymd2ord (y m d : Z) : Z :=
  _days_before_year y + _days_before_month y m + d.

Definition toordinal (t : datetime) : Z :=
  _ymd2ord (year t) (month t) (day t).

(** [isoweekday()]: Monday is 1 and Sunday is 7. *)
Definition isoweekday (t : datetime) : Z :=
  Py.int_or (toordinal t mod 7) 7.

Definition Saturday : Z := 6.
Definition Sunday : Z := 7.

End Datetime.

Export Datetime.

(** ** The outside world *)

(** What [subprocess] reports about one shell command: the shell ran and
    the command line finished with a return code and the bytes it wrote
    to standard output, or the shell could not be started at all. *)
Inductive proc_outcome :=
  | Exited (returncode : Z) (output : string)
  | SpawnFailed (msg : string).

(** One entry of the reply list of [Connection.command]: [error] is a
    message or [None]. *)
Record CommandReply := { success : bool; error : option string }.

(** A value of the [autostarts] mapping: a sequence of command lines, or
    the null a key without a value loads as. *)
Inductive yaml_value :=
  | YNull
  | YSeq (items : list string).

Inductive event :=
  | EPrint (message : string)
  | EJournalSend (message : string) (priority : Z) (syslog_identifier : string)
  | ESubprocessRun (cmd : string)
  | ECheckOutput (cmd : string)
  | EConnection
  | EWmCommand (payload : string)
  | ESleep (milliseconds : Z)
  | EMainQuit.

Abbreviation trace := (list event).

(** The answers of the environment.  [config_at path] is [None] when
    nothing exists at [path] and otherwise the document [yaml.load]
    returns.  The process and window-manager answers take the events so
    far, so a command may behave differently each time it is issued. *)
Record Env := {
  expanduser : string → string;
  isfile : string → bool;
  config_at : string → option (gmap string (gmap string yaml_value));
  shell : trace → string → proc_outcome;
  wm_reply : trace → string → list CommandReply;
  repr_bytes : string → string
}.

(** ** Exceptions and the state of the script *)

Inductive exn :=
  | KeyError (key : string)
  | NameError (msg : string)
  | TypeError (msg : string)
  | ValueError (msg : string)
  | IndexError (msg : string)
  | OSError (msg : string)
  | CalledProcessError (returncode : Z) (cmd : string) (output : option string).

Inductive result (A : Type) :=
  | Ok (a : A)
  | Raise (e : exn).
Arguments Ok {A} a.
Arguments Raise {A} e.

(** The three module-level lists and the events performed so far. *)
Record state := {
  wants : list string;
  pre_list : list string;
  weekend_list : list string;
  log : trace
}.

Definition initial : state :=
  {| wants := []; pre_list := []; weekend_list := []; log := [] |}.

Definition M (A : Type) : Type := state → result A * state.

#[global] Instance M_ret : MRet M := λ A a s, (Ok a, s).
#[global] Instance M_bind : MBind M := λ A B f m s,
  match m s with
  | (Ok a, s') => f a s'
  | (Raise e, s') => (Raise e, s')
  end.

Definition raise {A} (e : exn) : M A := λ s, (Raise e, s).

Definition modify (f : state → state) : M unit := λ s, (Ok (), f s).

Definition emit (ev : event) : M unit :=
  modify (λ s, {| wants := wants s; pre_list := pre_list s;
                  weekend_list := weekend_list s; log := log s ++ [ev] |}).

Definition gets {A} (f : state → A) : M A := λ s, (Ok (f s), s).

(** [try: body except ...: handler]; a handler answering [None] does not
    match the exception, which then propagates. *)
Definition try_except {A} (body : M A) (handler : exn → option (M A)) : M A :=
  λ s, match body s with
       | (Ok a, s') => (Ok a, s')
       | (Raise e, s') =>
           match handler e with
           | Some h => h s'
           | None => (Raise e, s')
           end
       end.

(** [for x in l: body(x)] over a list the loop does not change. *)
Fixpoint for_each {A} (l : list A) (body : A → M unit) : M unit :=
  match l with
  | [] => mret ()
  | x :: l' => body x ;; for_each l' body
  end.

(** ** [log_message] *)

Module journal.
Definition LOG_EMERG : Z := 0.
Definition LOG_ALERT : Z := 1.
Definition LOG_CRIT : Z := 2.
Definition LOG_ERR : Z := 3.
Definition LOG_WARNING : Z := 4.
Definition LOG_NOTICE : Z := 5.
Definition LOG_INFO : Z := 6.
Definition LOG_DEBUG : Z := 7.
End journal.

Definition valid_levels : gset Z :=
  {[ journal.LOG_EMERG; journal.LOG_ALERT; journal.LOG_CRIT; journal.LOG_ERR;
     journal.LOG_WARNING; journal.LOG_NOTICE; journal.LOG_INFO;
     journal.LOG_DEBUG ]}.

Definition log_message (message : string) (level : Z)
    (syslog_identifier : string) : M unit :=
  if decide (level ∉ valid_levels)
  then raise (ValueError ("Invalid log level: " +:+ Py.str_int level))
  else emit (EPrint message) ;;
       emit (EJournalSend message level syslog_identifier).

(** The default of the keyword argument [syslog_identifier]. *)
Definition default_identifier : string := "sway-autostart".

Definition log_msg (message : string) (level : Z) : M unit :=
  log_message message level default_identifier.

(** ** Dictionaries and lists of the loaded document *)

(** [d[k]]: the value, or [KeyError(k)]. *)
Definition getitem {V} (d : gmap string V) (k : string) : M V :=
  match d !! k with
  | Some v => mret v
  | None => raise (KeyError k)
  end.

(** Truthiness of a loaded value: null and the empty sequence are falsy. *)
Definition truthy (v : yaml_value) : bool :=
  match v with
  | YNull => false
  | YSeq items => Py.truthy_list items
  end.

(** [target.extend(v)]: iterating null is a [TypeError]. *)
Definition iter (v : yaml_value) : M (list string) :=
  match v with
  | YSeq items => mret items
  | YNull => raise (TypeError "'NoneType' object is not iterable")
  end.

Definition extend_wants (v : yaml_value) : M unit :=
  items ← iter v;
  modify (λ s, {| wants := wants s ++ items; pre_list := pre_list s;
                  weekend_list := weekend_list s; log := log s |}).

Definition extend_pre_list (v : yaml_value) : M unit :=
  items ← iter v;
  modify (λ s, {| wants := wants s; pre_list := pre_list s ++ items;
                  weekend_list := weekend_list s; log := log s |}).

Definition extend_weekend_list (v : yaml_value) : M unit :=
  items ← iter v;
  modify (λ s, {| wants := wants s; pre_list := pre_list s;
                  weekend_list := weekend_list s ++ items; log := log s |}).

(** [l[0]] on a list. *)
Definition first_item {A} (l : list A) : M A :=
  match l with
  | x :: _ => mret x
  | [] => raise (IndexError "list index out of range")
  end.

(** Truthiness of [reply.error]: a non-empty message. *)
Definition error_set (r : CommandReply) : bool :=
  match error r with
  | Some msg => Py.truthy_str msg
  | None => false
  end.

(** ** The script *)

Section Script.
Variable env : Env.

(** *** [WorkTime] *)

Definition is_weekend (self : datetime) : bool :=
  if negb (Py.in_range (isoweekday self) 1 6) then true else false.

Definition is_workday (self : datetime) : bool :=
  if isfile env (expanduser env "~/.vacation") then false
  else if negb (is_weekend self) && Py.in_range (hour self) 8 16 then true
  else false.

(** *** Reading the configuration *)

(** The body of the [try] block. *)
Definition consume_autostarts
    (config_file : gmap string (gmap string yaml_value))
    (workday weekend : bool) : M unit :=
  loaded_starts ← getitem config_file "autostarts";
  common ← getitem loaded_starts "common";
  extend_wants common ;;
  pre ← getitem loaded_starts "pre";
  (if truthy pre
   then pre' ← getitem loaded_starts "pre"; extend_pre_list pre'
   else mret ()) ;;
  (if workday
   then work ← getitem loaded_starts "work"; extend_wants work
   else mret ()) ;;
  (if weekend
   then wk ← getitem loaded_starts "weekend"; extend_weekend_list wk
   else mret ()).

(** The two [except] clauses of that block. *)
Definition config_handler (config_path : string) (e : exn)
    : option (M unit) :=
  match e with
  | KeyError key =>
      Some (log_msg ("Key not found in " +:+ config_path +:+ ": " +:+ key)
                    journal.LOG_ERR)
  | NameError msg =>
      Some (log_msg ("name error: " +:+ msg) journal.LOG_ERR)
  | _ => None
  end.

Definition load_config (config_path : string) (workday weekend : bool)
    : M unit :=
  match config_at env config_path with
  | None => mret ()
  | Some config_file =>
      emit (EPrint ("found/loading config: '" +:+ config_path +:+ "'")) ;;
      try_except (consume_autostarts config_file workday weekend)
                 (config_handler config_path)
  end.

(** *** Blocking tasks *)

(** [subprocess.run(cmd, shell=True, check=check)], the return code of
    the completed process.  Nothing is captured, so the exception that
    [check] asks for carries no output. *)
Definition subprocess_run (cmd : string) (check : bool) : M Z :=
  λ s, let outcome := shell env (log s) cmd in
       match emit (ESubprocessRun cmd) s with
       | (_, s') =>
           match outcome with
           | SpawnFailed msg => (Raise (OSError msg), s')
           | Exited rc _ =>
               if check && negb (rc =? 0)
               then (Raise (CalledProcessError rc cmd None), s')
               else (Ok rc, s')
           end
       end.

(** [subprocess.check_output(cmd, shell=True)], the captured output. *)
Definition subprocess_check_output (cmd : string) : M string :=
  λ s, let outcome := shell env (log s) cmd in
       match emit (ECheckOutput cmd) s with
       | (_, s') =>
           match outcome with
           | SpawnFailed msg => (Raise (OSError msg), s')
           | Exited rc out =>
               if negb (rc =? 0)
               then (Raise (CalledProcessError rc cmd (Some out)), s')
               else (Ok out, s')
           end
       end.

(** How an f-string renders the [output] of a [CalledProcessError]. *)
Definition fmt_output (output : option string) : string :=
  match output with
  | None => "None"
  | Some bytes => repr_bytes env bytes
  end.

Definition pre_task (pre_item : string) : M unit :=
  try_except
    (log_msg ("running (blocking) " +:+ Py.dq +:+ "pre" +:+ Py.dq
              +:+ " task: " +:+ Py.dq +:+ pre_item +:+ Py.dq)
             journal.LOG_INFO ;;
     subprocess_run pre_item false ;;
     mret ())
    (λ e, match e with
          | CalledProcessError _ _ output =>
              Some (log_msg ("failed " +:+ Py.dq +:+ pre_item +:+ Py.dq
                             +:+ ": " +:+ fmt_output output)
                            journal.LOG_ERR)
          | _ => None
          end).

Definition weekend_task (weekend_item : string) : M unit :=
  try_except
    (log_msg ("running (blocking) " +:+ Py.dq +:+ "weekend" +:+ Py.dq
              +:+ " task: " +:+ Py.dq +:+ weekend_item +:+ Py.dq)
             journal.LOG_INFO ;;
     subprocess_check_output weekend_item ;;
     mret ())
    (λ e, match e with
          | CalledProcessError _ _ output =>
              Some (log_msg ("Exception during " +:+ Py.dq +:+ weekend_item
                             +:+ Py.dq +:+ ": " +:+ fmt_output output)
                            journal.LOG_ERR)
          | _ => None
          end).

(** *** Tasks sent to the window manager *)

(** [_wm.command(payload)]: the list of replies. *)
Definition wm_command (payload : string) : M (list CommandReply) :=
  λ s, let reply := wm_reply env (log s) payload in
       match emit (EWmCommand payload) s with
       | (_, s') => (Ok reply, s')
       end.

(** [sleep(0.1)], the duration counted in milliseconds. *)
Definition pacing_delay : Z := 100.

Definition sleep (milliseconds : Z) : M unit := emit (ESleep milliseconds).

Definition wanted_task (wanteditem : string) : M unit :=
  let command := "exec " +:+ wanteditem in
  log_msg ("sending to WM: " +:+ Py.dq +:+ command +:+ Py.dq)
          journal.LOG_INFO ;;
  reply ← wm_command command;
  sleep pacing_delay ;;
  reply0 ← first_item reply;
  if error_set reply0
  then log_msg ("autostart " +:+ Py.dq +:+ command +:+ Py.dq
                +:+ " failed, couldn't reach WM")
               journal.LOG_ERR
  else mret ().

(** *** The three stages and the whole run *)

Definition pre_stage : M unit :=
  l ← gets pre_list; for_each l pre_task.

Definition weekend_stage (weekend : bool) : M unit :=
  if weekend then l ← gets weekend_list; for_each l weekend_task
  else mret ().

Definition general_stage : M unit :=
  l ← gets wants; for_each l wanted_task.

Definition main (config_path : string) (now : datetime) : M unit :=
  let workday := is_workday now in
  let weekend := is_weekend now in
  load_config config_path workday weekend ;;
  emit EConnection ;;
  pre_stage ;;
  weekend_stage weekend ;;
  general_stage ;;
  emit EMainQuit.

End Script.

(** ** Selection

    The lists the script holds once the configuration has been read, for
    the moment [now]: the first lines of the main block. *)
Definition select (env : Env) (config_path : string) (now : datetime)
    : result () * state :=
  load_config env config_path (is_workday env now) (is_weekend now) initial.

(** ** Reading a trace *)

Definition set_log (s : state) (tr : trace) : state :=
  {| wants := wants s; pre_list := pre_list s;
     weekend_list := weekend_list s; log := tr |}.

(** The two events one call of [log_message] performs. *)
Definition log_events (message : string) (level : Z) : trace :=
  [EPrint message; EJournalSend message level default_identifier].

(** The two messages of the configuration step. *)
Definition found_message (path : string) : string :=
  "found/loading config: '" +:+ path +:+ "'".

Definition key_message (path key : string) : string :=
  "Key not found in " +:+ path +:+ ": " +:+ key.

(** The message that announces a pre-task. *)
Definition pre_running_message (pre_item : string) : string :=
  "running (blocking) " +:+ Py.dq +:+ "pre" +:+ Py.dq
  +:+ " task: " +:+ Py.dq +:+ pre_item +:+ Py.dq.

(** The messages sent to the journal at error severity. *)
Fixpoint reported_errors (tr : trace) : list string :=
  match tr with
  | [] => []
  | EJournalSend message priority _ :: rest =>
      if priority =? journal.LOG_ERR then message :: reported_errors rest
      else reported_errors rest
  | _ :: rest => reported_errors rest
  end.

(** The payloads sent to the window manager, oldest first. *)
Fixpoint sends (tr : trace) : list string :=
  match tr with
  | [] => []
  | EWmCommand payload :: rest => payload :: sends rest
  | _ :: rest => sends rest
  end.

(** The command lines handed to a shell, oldest first. *)
Fixpoint shell_runs (tr : trace) : list string :=
  match tr with
  | [] => []
  | ESubprocessRun cmd :: rest => cmd :: shell_runs rest
  | ECheckOutput cmd :: rest => cmd :: shell_runs rest
  | _ :: rest => shell_runs rest
  end.

(** Every send is directly followed by the pacing delay. *)
Fixpoint paced (tr : trace) : bool :=
  match tr with
  | [] => true
  | EWmCommand _ :: rest =>
      match rest with
      | ESleep d :: _ => (d =? pacing_delay) && paced rest
      | _ => false
      end
  | _ :: rest => paced rest
  end.

(** The command lines of a loaded value, null counting as none. *)
Definition items_of (v : yaml_value) : list string :=
  match v with
  | YNull => []
  | YSeq items => items
  end.

(** ** The general stage as the specification words it

    For each command in order: build the directive, send it, wait the
    pacing delay, then look at the error flag of the reply and report at
    error severity when it is set. *)

Definition directive (command : string) : string := "exec " +:+ command.

Definition sending_message (command : string) : string :=
  "sending to WM: " +:+ Py.dq +:+ directive command +:+ Py.dq.

Definition failure_message (command : string) : string :=
  "autostart " +:+ Py.dq +:+ directive command +:+ Py.dq
  +:+ " failed, couldn't reach WM".

Definition dispatch_block (command : string) (flagged : bool) : trace :=
  log_events (sending_message command) journal.LOG_INFO
  ++ [EWmCommand (directive command); ESleep pacing_delay]
  ++ (if flagged then log_events (failure_message command) journal.LOG_ERR
      else []).

Definition reply_flag (reply : list CommandReply) : bool :=
  match reply with
  | r :: _ => error_set r
  | [] => false
  end.

(** The flag the window manager raises for each command of the list,
    when the stage starts after the events [history]. *)
Fixpoint dispatch_flags (env : Env) (history : trace) (general : list string)
    : list bool :=
  match general with
  | [] => []
  | c :: rest =>
      let announced :=
        history ++ log_events (sending_message c) journal.LOG_INFO in
      let flagged := reply_flag (wm_reply env announced (directive c)) in
      flagged :: dispatch_flags env (history ++ dispatch_block c flagged) rest
  end.

Definition dispatch_blocks (general : list string) (flags : list bool)
    : trace :=
  mjoin (zip_with dispatch_block general flags).

(** The commands of [general] whose flag is set. *)
Definition flagged_commands (general : list string) (flags : list bool)
    : list string :=
  (filter (λ cf : string * bool, cf.2 = true) (zip general flags)).*1.

(** ** The pre list as the specification words it

    The selected pre list is the [pre] field verbatim, and a document
    without that field gives the empty list with nothing raised and
    nothing reported at error severity. *)
Definition pre_verbatim_absent_silent : Prop :=
  ∀ (env : Env) (path : string) (cfg : gmap string (gmap string yaml_value))
    (starts : gmap string yaml_value) (workday weekend : bool),
    config_at env path = Some cfg →
    cfg !! "autostarts" = Some starts →
    let out := load_config env path workday weekend initial in
    match starts !! "pre" with
    | Some pv => pre_list out.2 = items_of pv
    | None =>
        pre_list out.2 = [] ∧ out.1 = Ok ()
        ∧ reported_errors (log out.2) = []
    end.

(** ** Concrete moments, documents and environments *)

Definition at_hour (y m d h : Z) : datetime :=
  {| year := y; month := m; day := d;
     hour := h; minute := 0; second := 0; microsecond := 0 |}.

(** Wednesday 3 January 2024 and Saturday 6 January 2024. *)
Definition wednesday_9am : datetime := at_hour 2024 1 3 9.
Definition wednesday_4pm : datetime := at_hour 2024 1 3 16.
Definition saturday_9am : datetime := at_hour 2024 1 6 9.

Definition document (starts : gmap string yaml_value)
    : gmap string (gmap string yaml_value) :=
  {[ "autostarts" := starts ]}.

Definition sample_starts : gmap string yaml_value :=
  {[ "pre" := YSeq ["a"]; "common" := YSeq ["b"];
     "weekend" := YSeq ["c"]; "work" := YSeq ["d"] ]}.

Definition starts_without_work : gmap string yaml_value :=
  {[ "pre" := YSeq ["a"]; "common" := YSeq ["b"]; "weekend" := YSeq ["c"] ]}.

Definition starts_without_pre : gmap string yaml_value :=
  {[ "common" := YSeq ["b"]; "weekend" := YSeq ["c"]; "work" := YSeq ["d"] ]}.

Definition starts_without_common : gmap string yaml_value :=
  {[ "pre" := YSeq ["a"]; "weekend" := YSeq ["c"]; "work" := YSeq ["d"] ]}.

(** A document whose first pre-task fails and whose second succeeds. *)
Definition starts_failing_pre : gmap string yaml_value :=
  {[ "pre" := YSeq ["false"; "true"]; "common" := YSeq [];
     "weekend" := YSeq []; "work" := YSeq [] ]}.

Definition ok_reply : CommandReply := {| success := true; error := None |}.

Definition failed_reply : CommandReply :=
  {| success := false; error := Some "Unknown/invalid command" |}.

(** An environment with or without the vacation file, with one document
    (or none) at every path, and with given process and window-manager
    behaviour. *)
Definition mk_env (vacation : bool)
    (doc : option (gmap string (gmap string yaml_value)))
    (sh : trace → string → proc_outcome)
    (wm : trace → string → list CommandReply) : Env :=
  {| expanduser := λ p, p;
     isfile := λ p, vacation && String.eqb p "~/.vacation";
     config_at := λ _, doc;
     shell := sh;
     wm_reply := wm;
     repr_bytes := λ b, "b'" +:+ b +:+ "'" |}.

Definition sh_ok : trace → string → proc_outcome := λ _ _, Exited 0 "".

(** The shell in which the command line [false] exits with status 1. *)
Definition sh_false_fails : trace → string → proc_outcome :=
  λ _ cmd, if String.eqb cmd "false" then Exited 1 "" else Exited 0 "".

Definition sh_no_shell : trace → string → proc_outcome :=
  λ _ _, SpawnFailed "[Errno 2] No such file or directory: '/bin/sh'".

Definition wm_ok : trace → string → list CommandReply := λ _ _, [ok_reply].

(** The window manager that rejects the directive [exec x]. *)
Definition wm_rejects_x : trace → string → list CommandReply :=
  λ _ payload,
    if String.eqb payload "exec x" then [failed_reply] else [ok_reply].

Definition quiet_env (doc : option (gmap string (gmap string yaml_value)))
    : Env :=
  mk_env false doc sh_ok wm_ok.

Definition config_path_0 : string := "/home/user/.config/autostart-i3ipc.yml".

(** ** Kinds of events and what a computation may do *)




(** [s'] has the log of [s] followed by events of kind [K]. *)
Definition grows (K : event → bool) (s s' : state) : Prop :=
  ∃ new, log s' = log s ++ new ∧ forallb K new = true.

(** [s'] has the three lists of [s]. *)
Definition same_lists (s s' : state) : Prop :=
  wants s' = wants s ∧ pre_list s' = pre_list s
  ∧ weekend_list s' = weekend_list s.

(** From every state the computation ends in a state related by [R],
    whether it returns or raises. *)
Definition steps {A} (R : state → state → Prop) (m : M A) : Prop :=
  ∀ s, R s (m s).2.






(** ** The weekend stage, command by command *)

Definition weekend_running_message (weekend_item : string) : string :=
  "running (blocking) " +:+ Py.dq +:+ "weekend" +:+ Py.dq
  +:+ " task: " +:+ Py.dq +:+ weekend_item +:+ Py.dq.

Definition exception_message (env : Env) (weekend_item output : string)
    : string :=
  "Exception during " +:+ Py.dq +:+ weekend_item +:+ Py.dq +:+ ": "
  +:+ repr_bytes env output.

(** The events of one weekend command that exits with [rc] after
    writing [output]. *)
Definition weekend_block (env : Env) (weekend_item : string)
    (exit : Z * string) : trace :=
  log_events (weekend_running_message weekend_item) journal.LOG_INFO
  ++ [ECheckOutput weekend_item]
  ++ (if exit.1 =? 0 then []
      else log_events (exception_message env weekend_item exit.2)
                      journal.LOG_ERR).

Definition exit_of (outcome : proc_outcome) : Z * string :=
  match outcome with
  | Exited rc output => (rc, output)
  | SpawnFailed _ => (0, "")
  end.

(** The exit of each command of the list, when the stage starts after
    the events [history]. *)
Fixpoint weekend_exits (env : Env) (history : trace) (l : list string)
    : list (Z * string) :=
  match l with
  | [] => []
  | c :: rest =>
      let announced :=
        history ++ log_events (weekend_running_message c) journal.LOG_INFO in
      let exit := exit_of (shell env announced c) in
      exit :: weekend_exits env (history ++ weekend_block env c exit) rest
  end.

Definition weekend_blocks (env : Env) (l : list string)
    (exits : list (Z * string)) : trace :=
  mjoin (zip_with (weekend_block env) l exits).

(** The reports of the commands that exited with a non-zero status. *)
Definition failure_reports (env : Env) (l : list string)
    (exits : list (Z * string)) : list string :=
  (λ ce : string * (Z * string), exception_message env ce.1 ce.2.2)
    <$> filter (λ ce : string * (Z * string), ce.2.1 ≠ 0) (zip l exits).

(** ** More documents and environments *)

Definition type_error_message : string := "'NoneType' object is not iterable".

Definition starts_null_common : gmap string yaml_value :=
  {[ "pre" := YSeq ["a"]; "common" := YNull;
     "weekend" := YSeq ["c"]; "work" := YSeq ["d"] ]}.

Definition starts_null_work : gmap string yaml_value :=
  {[ "pre" := YSeq ["a"]; "common" := YSeq ["b"];
     "weekend" := YSeq ["c"]; "work" := YNull ]}.

Definition starts_null_pre : gmap string yaml_value :=
  {[ "pre" := YNull; "common" := YSeq ["b"];
     "weekend" := YSeq ["c"]; "work" := YSeq ["d"] ]}.

(** A document that only asks for common commands. *)
Definition starts_common_only : gmap string yaml_value :=
  {[ "pre" := YSeq []; "common" := YSeq ["x"; "y"] ]}.

(** A document whose weekend commands are [false] and [true]. *)
Definition starts_failing_weekend : gmap string yaml_value :=
  {[ "pre" := YSeq ["a"]; "common" := YSeq ["b"];
     "weekend" := YSeq ["false"; "true"]; "work" := YSeq ["d"] ]}.

(** The window manager that answers [exec x] with no reply at all. *)
Definition wm_silent_on_x : trace → string → list CommandReply :=
  λ _ payload, if String.eqb payload "exec x" then [] else [ok_reply].

(** A reply that signals failure without a message, followed by one that
    carries a message. *)
Definition unexplained_failure : CommandReply :=
  {| success := false; error := None |}.

Definition wm_unexplained : trace → string → list CommandReply :=
  λ _ _, [unexplained_failure; failed_reply].

Definition state_with (general pre weekend : list string) : state :=
  {| wants := general; pre_list := pre; weekend_list := weekend; log := [] |}.

(** ** The blocking stages when every command exits *)

(** The events of the pre stage for the pre list [l]. *)
Definition pre_events (l : list string) : trace :=
  l ≫= λ c, log_events (pre_running_message c) journal.LOG_INFO
            ++ [ESubprocessRun c].

(** The events of the weekend stage when every command exits with
    status 0. *)
Definition quiet_weekend_events (l : list string) : trace :=
  l ≫= λ c, log_events (weekend_running_message c) journal.LOG_INFO
            ++ [ECheckOutput c].

(** The events of the general stage when no reply carries an error. *)
Definition quiet_dispatch_events (l : list string) : trace :=
  l ≫= λ c, dispatch_block c false.

(** The shell in which [false] exits with status 1 after writing
    [oops]. *)
Definition sh_false_writes : trace → string → proc_outcome :=
  λ _ cmd, if String.eqb cmd "false" then Exited 1 "oops" else Exited 0 "".

(** * Properties *)

(** ** Python helpers and the calendar *)

Lemma in_range_spec x lo hi : Py.in_range x lo hi = true ↔ lo ≤ x < hi.
Proof.
  unfold Py.in_range.
  rewrite andb_true_iff, Z.leb_le, Z.ltb_lt. done.
Qed.

Lemma in_range_false x lo hi : Py.in_range x lo hi = false ↔ ¬ (lo ≤ x < hi).
Proof.
  rewrite <- in_range_spec.
  destruct (Py.in_range x lo hi); split; congruence.
Qed.

Lemma isoweekday_bounds t : 1 ≤ isoweekday t ≤ 7.
Proof.
  unfold isoweekday, Py.int_or.
  pose proof (Z.mod_pos_bound (toordinal t) 7 ltac:(lia)).
  destruct (Z.eqb_spec (toordinal t mod 7) 0); lia.
Qed.

Lemma is_weekend_iff t :
  is_weekend t = true ↔ isoweekday t = Saturday ∨ isoweekday t = Sunday.
Proof.
  unfold is_weekend, Saturday, Sunday.
  pose proof (isoweekday_bounds t).
  destruct (Py.in_range (isoweekday t) 1 6) eqn:E; simpl.
  - apply in_range_spec in E. split; [done | lia].
  - apply in_range_false in E. split; [lia | done].
Qed.

Lemma is_workday_iff env t :
  is_workday env t = true ↔
    isfile env (expanduser env "~/.vacation") = false
    ∧ is_weekend t = false
    ∧ 8 ≤ hour t < 16.
Proof.
  unfold is_workday.
  destruct (isfile env _); [split; [discriminate | intros (? & _); discriminate] |].
  destruct (is_weekend t); simpl;
    [split; [discriminate | intros (_ & ? & _); discriminate] |].
  destruct (Py.in_range (hour t) 8 16) eqn:E.
  - apply in_range_spec in E. done.
  - apply in_range_false in E. split; [discriminate | tauto].
Qed.

(** ** The context classifier *)

(** C1: [is_weekend] holds exactly on ISO week days 6 (Saturday) and 7
    (Sunday); [is_workday] holds exactly when the vacation file is
    absent, the day is not a weekend day and the hour lies in [8, 16);
    at hour 16 the moment is not a work day. *)
Theorem classify_spec (env : Env) (t : datetime) :
  (is_weekend t = true ↔ isoweekday t = Saturday ∨ isoweekday t = Sunday)
  ∧ (is_workday env t = true ↔
       isfile env (expanduser env "~/.vacation") = false
       ∧ is_weekend t = false
       ∧ 8 ≤ hour t < 16)
  ∧ (hour t = 16 → is_workday env t = false).
Proof.
  split; [apply is_weekend_iff |].
  split; [apply is_workday_iff |].
  intros H16. apply not_true_is_false. rewrite is_workday_iff. lia.
Qed.

(** C1 at three moments: a Wednesday at 9 is a work day, the same day at
    16 is not, and a Saturday is a weekend day. *)
Lemma classify_spec_witness :
  is_workday (quiet_env None) wednesday_9am = true
  ∧ is_workday (quiet_env None) wednesday_4pm = false
  ∧ is_weekend saturday_9am = true.
Proof.
  pose proof (classify_spec (quiet_env None) wednesday_9am) as (_ & H9 & _).
  pose proof (classify_spec (quiet_env None) wednesday_4pm) as (_ & _ & H16).
  pose proof (classify_spec (quiet_env None) saturday_9am) as (Hsat & _).
  split; [| split].
  - apply H9. vm_compute. repeat split; discriminate.
  - apply H16. reflexivity.
  - apply Hsat. left. reflexivity.
Defined.

(** C7: with the vacation file present no moment is a work day, and a
    moment that is a work day is never a weekend day. *)
Theorem workday_suppressed_and_exclusive (env : Env) (t : datetime) :
  (isfile env (expanduser env "~/.vacation") = true →
     is_workday env t = false)
  ∧ (is_workday env t = true → is_weekend t = false).
Proof.
  split.
  - intros Hv. unfold is_workday. by rewrite Hv.
  - intros Hw. apply is_workday_iff in Hw. tauto.
Qed.

(** C7 on a Wednesday at 9: a work day without the vacation file, not
    one with it. *)
Lemma workday_suppressed_and_exclusive_witness :
  is_workday (mk_env true None sh_ok wm_ok) wednesday_9am = false
  ∧ is_weekend wednesday_9am = false.
Proof.
  split.
  - apply (proj1 (workday_suppressed_and_exclusive
                    (mk_env true None sh_ok wm_ok) wednesday_9am)).
    reflexivity.
  - apply (proj2 (workday_suppressed_and_exclusive
                    (quiet_env None) wednesday_9am)).
    reflexivity.
Defined.

(** ** Logging *)

(** Unfolds the monad operations at a given state. *)
Ltac run_m :=
  unfold mbind, M_bind, mret, M_ret, raise, emit, gets, modify; simpl.

Lemma valid_levels_range level : level ∈ valid_levels ↔ 0 ≤ level ≤ 7.
Proof.
  unfold valid_levels, journal.LOG_EMERG, journal.LOG_ALERT, journal.LOG_CRIT,
    journal.LOG_ERR, journal.LOG_WARNING, journal.LOG_NOTICE,
    journal.LOG_INFO, journal.LOG_DEBUG.
  rewrite !elem_of_union, !elem_of_singleton. lia.
Qed.

Lemma log_message_valid message level ident s :
  level ∈ valid_levels →
  log_message message level ident s =
    (Ok (), set_log s (log s ++ [EPrint message;
                                 EJournalSend message level ident])).
Proof.
  intros Hin. unfold log_message.
  destruct (decide (level ∉ valid_levels)) as [Hn | _]; [done |].
  unfold set_log. run_m. by rewrite <- (assoc_L (++)).
Qed.

Lemma log_message_invalid message level ident s :
  level ∉ valid_levels →
  log_message message level ident s =
    (Raise (ValueError ("Invalid log level: " +:+ Py.str_int level)), s).
Proof.
  intros Hn. unfold log_message.
  destruct (decide (level ∉ valid_levels)); done.
Qed.

Lemma log_msg_eq message level s :
  level ∈ valid_levels →
  log_msg message level s =
    (Ok (), set_log s (log s ++ log_events message level)).
Proof. apply log_message_valid. Qed.

(** C9: the valid levels are the eight integers 0 to 7; [log_message]
    raises exactly when the level is not one of them, and then it raises
    [ValueError] naming the level with the state untouched, so nothing
    was printed or sent; on a valid level it returns normally after
    printing the message and sending it to the journal, in this order. *)
Theorem log_message_spec (message : string) (level : Z) (ident : string)
    (s : state) :
  size valid_levels = 8%nat
  ∧ (level ∈ valid_levels ↔ 0 ≤ level ≤ 7)
  ∧ ((∃ e, (log_message message level ident s).1 = Raise e)
     ↔ level ∉ valid_levels)
  ∧ (level ∉ valid_levels →
       log_message message level ident s =
         (Raise (ValueError ("Invalid log level: " +:+ Py.str_int level)), s))
  ∧ (level ∈ valid_levels →
       log_message message level ident s =
         (Ok (), set_log s (log s ++ [EPrint message;
                                      EJournalSend message level ident]))).
Proof.
  split; [by vm_compute |].
  split; [apply valid_levels_range |].
  split; [| split; [apply log_message_invalid | apply log_message_valid]].
  destruct (decide (level ∈ valid_levels)) as [Hin | Hn].
  - rewrite (log_message_valid _ _ _ _ Hin). simpl.
    split; [intros [e He]; discriminate | done].
  - rewrite (log_message_invalid _ _ _ _ Hn). simpl.
    split; [done | eauto].
Qed.

(** C9 at level 8, which is rejected before any event, and at the error
    level 3, which is printed and then sent. *)
Lemma log_message_spec_witness :
  log_message "m" 8 default_identifier initial =
    (Raise (ValueError "Invalid log level: 8"), initial)
  ∧ log_message "m" journal.LOG_ERR default_identifier initial =
      (Ok (), set_log initial
                [EPrint "m"; EJournalSend "m" 3 default_identifier]).
Proof.
  pose proof (log_message_spec "m" 8 default_identifier initial)
    as (_ & _ & _ & Hbad & _).
  pose proof (log_message_spec "m" journal.LOG_ERR default_identifier initial)
    as (_ & _ & _ & _ & Hgood).
  split.
  - apply Hbad. by vm_compute.
  - apply Hgood. by vm_compute.
Defined.

(** ** Selecting the command lists *)

(** Unfolds the reading of the configuration down to the lookups. *)
Ltac run_config :=
  unfold load_config, try_except, consume_autostarts, config_handler,
    getitem, extend_wants, extend_pre_list, extend_weekend_list, iter,
    log_msg, log_message;
  run_m.


(** The lists after [common] and [pre] have been read, whatever follows. *)
Lemma load_config_pre_collected env path cfg starts cs pv workday weekend :
  config_at env path = Some cfg →
  cfg !! "autostarts" = Some starts →
  starts !! "common" = Some (YSeq cs) →
  starts !! "pre" = Some pv →
  pre_list (load_config env path workday weekend initial).2 = items_of pv.
Proof.
  intros Hcfg Hstarts Hcommon Hpre. run_config.
  rewrite Hcfg. simpl. rewrite Hstarts, Hcommon. simpl. rewrite Hpre.
  destruct pv as [| [| p ps]]; simpl; rewrite ?Hpre; simpl;
    destruct workday, weekend; simpl;
    repeat (match goal with
            | |- context [starts !! ?k] => destruct (starts !! k) as [[|?]|]
            end; simpl);
    reflexivity.
Qed.

(** C4: a document with [common] and [pre] but no [work] key, read on a
    work day: the missing key [work] is reported at error severity, no
    exception escapes, the pre list holds the [pre] commands and the
    general list holds exactly the [common] commands. *)
Theorem missing_work_key (env : Env) (path : string)
    (cfg : gmap string (gmap string yaml_value))
    (starts : gmap string yaml_value) (cs : list string) (pv : yaml_value)
    (weekend : bool) :
  config_at env path = Some cfg →
  cfg !! "autostarts" = Some starts →
  starts !! "common" = Some (YSeq cs) →
  starts !! "pre" = Some pv →
  starts !! "work" = None →
  load_config env path true weekend initial =
    (Ok (),
     {| wants := cs; pre_list := items_of pv; weekend_list := [];
        log := EPrint (found_message path)
               :: log_events (key_message path "work") journal.LOG_ERR |}).
Proof.
  intros Hcfg Hstarts Hcommon Hpre Hwork. run_config.
  rewrite Hcfg. simpl. rewrite Hstarts, Hcommon. simpl. rewrite Hpre.
  destruct pv as [| [| p ps]]; simpl; rewrite ?Hpre; simpl;
    rewrite Hwork; reflexivity.
Qed.

(** C4 on the document [{pre: [a], common: [b], weekend: [c]}]. *)
Lemma missing_work_key_witness :
  load_config (quiet_env (Some (document starts_without_work)))
      config_path_0 true false initial =
    (Ok (),
     {| wants := ["b"]; pre_list := ["a"]; weekend_list := [];
        log := EPrint (found_message config_path_0)
               :: log_events (key_message config_path_0 "work")
                             journal.LOG_ERR |}).
Proof.
  apply (missing_work_key (quiet_env (Some (document starts_without_work)))
           config_path_0 (document starts_without_work) starts_without_work
           ["b"] (YSeq ["a"]) false);
    reflexivity.
Defined.

(** C10: one [try] block around reads in the order common, pre, work,
    weekend.  Without [common] all three lists stay empty, whatever the
    other keys hold and whatever the moment; with [common] but without
    [pre] the general list is the [common] commands alone and the pre
    and weekend lists stay empty, on work days and weekends alike. *)
Theorem missing_key_stops_reading (env : Env) (path : string)
    (cfg : gmap string (gmap string yaml_value))
    (starts : gmap string yaml_value) (workday weekend : bool) :
  config_at env path = Some cfg →
  cfg !! "autostarts" = Some starts →
  (starts !! "common" = None →
     load_config env path workday weekend initial =
       (Ok (),
        {| wants := []; pre_list := []; weekend_list := [];
           log := EPrint (found_message path)
                  :: log_events (key_message path "common")
                                journal.LOG_ERR |}))
  ∧ (∀ cs, starts !! "common" = Some (YSeq cs) →
       starts !! "pre" = None →
       load_config env path workday weekend initial =
         (Ok (),
          {| wants := cs; pre_list := []; weekend_list := [];
             log := EPrint (found_message path)
                    :: log_events (key_message path "pre")
                                  journal.LOG_ERR |})).
Proof.
  intros Hcfg Hstarts. split.
  - intros Hcommon. run_config. rewrite Hcfg. simpl.
    by rewrite Hstarts, Hcommon.
  - intros cs Hcommon Hpre. run_config. rewrite Hcfg. simpl.
    rewrite Hstarts, Hcommon. simpl. by rewrite Hpre.
Qed.

(** C10 with every other key present: without [common] nothing is
    selected on a weekend; without [pre] only the [common] command is
    selected, on a work day and on a weekend. *)
Lemma missing_key_stops_reading_witness :
  load_config (quiet_env (Some (document starts_without_common)))
      config_path_0 false true initial =
    (Ok (),
     {| wants := []; pre_list := []; weekend_list := [];
        log := EPrint (found_message config_path_0)
               :: log_events (key_message config_path_0 "common")
                             journal.LOG_ERR |})
  ∧ (∀ workday weekend,
       load_config (quiet_env (Some (document starts_without_pre)))
           config_path_0 workday weekend initial =
         (Ok (),
          {| wants := ["b"]; pre_list := []; weekend_list := [];
             log := EPrint (found_message config_path_0)
                    :: log_events (key_message config_path_0 "pre")
                                  journal.LOG_ERR |})).
Proof.
  split.
  - apply (proj1 (missing_key_stops_reading
                    (quiet_env (Some (document starts_without_common)))
                    config_path_0 (document starts_without_common)
                    starts_without_common false true eq_refl eq_refl)).
    reflexivity.
  - intros workday weekend.
    apply (proj2 (missing_key_stops_reading
                    (quiet_env (Some (document starts_without_pre)))
                    config_path_0 (document starts_without_pre)
                    starts_without_pre workday weekend eq_refl eq_refl));
      reflexivity.
Defined.

(** C3, as the specification words it, fails twice.  In the document
    [{common: [b], weekend: [c], work: [d]}] the [pre] field is absent
    and the absence is reported at error severity as a missing key.  In
    the document [{pre: [a], weekend: [c], work: [d]}] the [pre] field
    holds [a] and the selected pre list is empty, because the missing
    [common] ended the reading before [pre] was reached. *)
Lemma pre_verbatim_absent_silent_fails :
  (starts_without_pre !! "pre" = None
   ∧ reported_errors
       (log (load_config (quiet_env (Some (document starts_without_pre)))
               config_path_0 false false initial).2)
     = [key_message config_path_0 "pre"])
  ∧ (starts_without_common !! "pre" = Some (YSeq ["a"])
     ∧ pre_list
         (load_config (quiet_env (Some (document starts_without_common)))
            config_path_0 false false initial).2
       = [])
  ∧ ¬ pre_verbatim_absent_silent.
Proof.
  split; [split; reflexivity |]. split; [split; reflexivity |].
  intros Hclaim.
  specialize (Hclaim (quiet_env (Some (document starts_without_pre)))
                config_path_0 (document starts_without_pre)
                starts_without_pre false false eq_refl eq_refl).
  vm_compute in Hclaim. destruct Hclaim as (_ & _ & Hsilent).
  discriminate Hsilent.
Qed.

(** C3, amended: in a document whose [autostarts] has a [common]
    sequence, the selected pre list is the [pre] field verbatim (null
    counting as empty); when [pre] is absent the pre list is empty and
    nothing is raised, and the absence is reported once, at error
    severity, as the missing key [pre]. *)
Theorem pre_selection (env : Env) (path : string)
    (cfg : gmap string (gmap string yaml_value))
    (starts : gmap string yaml_value) (cs : list string)
    (workday weekend : bool) :
  config_at env path = Some cfg →
  cfg !! "autostarts" = Some starts →
  starts !! "common" = Some (YSeq cs) →
  match starts !! "pre" with
  | Some pv =>
      pre_list (load_config env path workday weekend initial).2 = items_of pv
  | None =>
      pre_list (load_config env path workday weekend initial).2 = []
      ∧ (load_config env path workday weekend initial).1 = Ok ()
      ∧ reported_errors (log (load_config env path workday weekend initial).2)
        = [key_message path "pre"]
  end.
Proof.
  intros Hcfg Hstarts Hcommon.
  destruct (starts !! "pre") as [pv |] eqn:Hpre.
  - by eapply load_config_pre_collected.
  - run_config. rewrite Hcfg. simpl. rewrite Hstarts, Hcommon. simpl.
    by rewrite Hpre.
Qed.

(** C3, amended, on the sample document (pre list [a]) and on the
    document without [pre] (empty pre list, one report). *)
Lemma pre_selection_witness :
  pre_list (load_config (quiet_env (Some (document sample_starts)))
              config_path_0 true false initial).2 = ["a"]
  ∧ reported_errors
      (log (load_config (quiet_env (Some (document starts_without_pre)))
              config_path_0 true false initial).2)
    = [key_message config_path_0 "pre"].
Proof.
  split.
  - apply (pre_selection (quiet_env (Some (document sample_starts)))
             config_path_0 (document sample_starts) sample_starts ["b"]
             true false eq_refl eq_refl eq_refl).
  - apply (pre_selection (quiet_env (Some (document starts_without_pre)))
             config_path_0 (document starts_without_pre) starts_without_pre
             ["b"] true false eq_refl eq_refl eq_refl).
Defined.

(** C8: for the document [{pre: [a], common: [b], weekend: [c], work:
    [d]}] and no vacation file, a Wednesday at 9 selects pre [a], no
    weekend command and general [b; d]; a Saturday selects pre [a],
    weekend [c] and general [b]. *)
Theorem sample_selection (env : Env) (path : string) :
  isfile env (expanduser env "~/.vacation") = false →
  config_at env path = Some (document sample_starts) →
  (select env path wednesday_9am).1 = Ok ()
  ∧ pre_list (select env path wednesday_9am).2 = ["a"]
  ∧ weekend_list (select env path wednesday_9am).2 = []
  ∧ wants (select env path wednesday_9am).2 = ["b"; "d"]
  ∧ (select env path saturday_9am).1 = Ok ()
  ∧ pre_list (select env path saturday_9am).2 = ["a"]
  ∧ weekend_list (select env path saturday_9am).2 = ["c"]
  ∧ wants (select env path saturday_9am).2 = ["b"].
Proof.
  intros Hvac Hcfg.
  unfold select, is_workday. rewrite Hvac.
  change (is_weekend wednesday_9am) with false.
  change (is_weekend saturday_9am) with true.
  simpl. unfold load_config. rewrite Hcfg.
  repeat split; reflexivity.
Qed.

(** C8 in the environment without vacation file that holds the sample
    document. *)
Lemma sample_selection_witness :
  wants (select (quiet_env (Some (document sample_starts)))
           config_path_0 wednesday_9am).2 = ["b"; "d"]
  ∧ weekend_list (select (quiet_env (Some (document sample_starts)))
                    config_path_0 saturday_9am).2 = ["c"].
Proof.
  pose proof (sample_selection (quiet_env (Some (document sample_starts)))
                config_path_0 eq_refl eq_refl)
    as (_ & _ & _ & Hwed & _ & _ & Hsat & _).
  exact (conj Hwed Hsat).
Defined.

(** ** The whole run *)

(** The run is the selection followed by the stages on the selected
    lists. *)
Lemma main_after_select env path now :
  main env path now initial =
    match select env path now with
    | (Ok _, s) =>
        (emit EConnection ;; pre_stage env ;;
         weekend_stage env (is_weekend now) ;; general_stage env ;;
         emit EMainQuit) s
    | (Raise e, s) => (Raise e, s)
    end.
Proof. reflexivity. Qed.

(** C6: with no file at the configuration path the run performs exactly
    two events, opening the connection and quitting it; the three lists
    are empty, nothing is reported, run or sent, and no exception
    escapes. *)
Theorem no_config_file (env : Env) (path : string) (now : datetime) :
  config_at env path = None →
  main env path now initial =
    (Ok (),
     {| wants := []; pre_list := []; weekend_list := [];
        log := [EConnection; EMainQuit] |}).
Proof.
  intros Hnone. unfold main, load_config. rewrite Hnone.
  unfold pre_stage, weekend_stage, general_stage. run_m.
  destruct (is_weekend now); reflexivity.
Qed.

(** C6 on a Saturday and on a Wednesday morning. *)
Lemma no_config_file_witness :
  main (quiet_env None) config_path_0 saturday_9am initial =
    (Ok (), set_log initial [EConnection; EMainQuit])
  ∧ main (quiet_env None) config_path_0 wednesday_9am initial =
      (Ok (), set_log initial [EConnection; EMainQuit]).
Proof.
  split.
  - apply (no_config_file (quiet_env None) config_path_0 saturday_9am).
    reflexivity.
  - apply (no_config_file (quiet_env None) config_path_0 wednesday_9am).
    reflexivity.
Defined.

(** ** The blocking pre stage *)

Lemma bind_ok {A B} (m : M A) (f : A → M B) s a s' :
  m s = (Ok a, s') → (m ≫= f) s = f a s'.
Proof. intros H. unfold mbind, M_bind. by rewrite H. Qed.

Lemma bind_raise {A B} (m : M A) (f : A → M B) s e s' :
  m s = (Raise e, s') → (m ≫= f) s = (Raise e, s').
Proof. intros H. unfold mbind, M_bind. by rewrite H. Qed.

Lemma info_valid : journal.LOG_INFO ∈ valid_levels.
Proof. apply valid_levels_range. unfold journal.LOG_INFO. lia. Qed.

Lemma err_valid : journal.LOG_ERR ∈ valid_levels.
Proof. apply valid_levels_range. unfold journal.LOG_ERR. lia. Qed.

(** Whatever status the command exits with, the pre-task announces it,
    runs it and returns: [check=False] never raises, so the handler of
    [CalledProcessError] is never entered. *)
Lemma pre_task_exited env item s rc out :
  shell env (log s ++ log_events (pre_running_message item) journal.LOG_INFO)
        item = Exited rc out →
  pre_task env item s =
    (Ok (), set_log s (log s
                       ++ log_events (pre_running_message item)
                                     journal.LOG_INFO
                       ++ [ESubprocessRun item])).
Proof.
  intros Hsh. unfold pre_task, try_except.
  rewrite (bind_ok _ _ _ _ _ (log_msg_eq _ _ s info_valid)).
  unfold subprocess_run. run_m. fold (pre_running_message item).
  rewrite Hsh. unfold set_log. simpl. by rewrite <- (assoc_L (++)).
Qed.

(** When the shell cannot be started the [OSError] leaves the pre-task:
    no handler matches it. *)
Lemma pre_task_spawn_failed env item s msg :
  shell env (log s ++ log_events (pre_running_message item) journal.LOG_INFO)
        item = SpawnFailed msg →
  pre_task env item s =
    (Raise (OSError msg),
     set_log s (log s
                ++ log_events (pre_running_message item) journal.LOG_INFO
                ++ [ESubprocessRun item])).
Proof.
  intros Hsh. unfold pre_task, try_except.
  rewrite (bind_ok _ _ _ _ _ (log_msg_eq _ _ s info_valid)).
  unfold subprocess_run. run_m. fold (pre_running_message item).
  rewrite Hsh. unfold set_log. simpl. by rewrite <- (assoc_L (++)).
Qed.

Lemma shell_runs_app tr1 tr2 :
  shell_runs (tr1 ++ tr2) = shell_runs tr1 ++ shell_runs tr2.
Proof.
  induction tr1 as [| ev tr1 IH]; [done |].
  destruct ev; simpl; by rewrite ?IH.
Qed.

(** With a shell that always starts, the pre loop runs every command in
    list order and reports nothing at error severity, whatever the exit
    statuses are. *)
Lemma for_each_pre_silent env l :
  (∀ tr cmd, ∃ rc out, shell env tr cmd = Exited rc out) →
  ∀ s, ∃ new,
    for_each l (pre_task env) s = (Ok (), set_log s (log s ++ new))
    ∧ reported_errors new = []
    ∧ shell_runs new = l.
Proof.
  intros Hsh. induction l as [| c l IH]; intros s.
  - exists []. unfold set_log. simpl. rewrite app_nil_r. by destruct s.
  - destruct (Hsh (log s ++ log_events (pre_running_message c)
                                        journal.LOG_INFO) c)
      as (rc & out & Hc).
    simpl for_each.
    rewrite (bind_ok _ _ _ _ _ (pre_task_exited env c s rc out Hc)).
    destruct (IH (set_log s (log s
                             ++ log_events (pre_running_message c)
                                           journal.LOG_INFO
                             ++ [ESubprocessRun c])))
      as (new & Hrun & Herr & Hruns).
    exists (log_events (pre_running_message c) journal.LOG_INFO
            ++ [ESubprocessRun c] ++ new).
    split; [| split].
    + rewrite Hrun. unfold set_log. simpl. by rewrite <- !(assoc_L (++)).
    + simpl. exact Herr.
    + simpl. by rewrite Hruns.
Qed.

(** C2, the run on the document [{pre: [false, true], common: [],
    weekend: [], work: []}] on a Wednesday at 9: when
    [false] exits with status 1 both pre-tasks run, in order, and nothing
    is reported at error severity; when the shell cannot be started the
    run ends in [OSError] at the first pre-task, the second never runs
    and the connection is never quit. *)
Theorem pre_failure_not_reported :
  (main (mk_env false (Some (document starts_failing_pre))
           sh_false_fails wm_ok)
        config_path_0 wednesday_9am initial).1 = Ok ()
  ∧ shell_runs
      (log (main (mk_env false (Some (document starts_failing_pre))
                    sh_false_fails wm_ok)
              config_path_0 wednesday_9am initial).2)
    = ["false"; "true"]
  ∧ reported_errors
      (log (main (mk_env false (Some (document starts_failing_pre))
                    sh_false_fails wm_ok)
              config_path_0 wednesday_9am initial).2)
    = []
  ∧ main (mk_env false (Some (document starts_failing_pre))
            sh_no_shell wm_ok)
         config_path_0 wednesday_9am initial
    = (Raise (OSError "[Errno 2] No such file or directory: '/bin/sh'"),
       {| wants := []; pre_list := ["false"; "true"]; weekend_list := [];
          log := EPrint (found_message config_path_0)
                 :: EConnection
                 :: log_events (pre_running_message "false") journal.LOG_INFO
                 ++ [ESubprocessRun "false"] |}).
Proof.
  split; [by vm_compute |]. split; [by vm_compute |].
  split; by vm_compute.
Qed.

(** ** The general stage *)

Lemma first_item_reply_flag (reply : list CommandReply) s :
  reply ≠ [] →
  ∃ r, first_item reply s = (Ok r, s) ∧ error_set r = reply_flag reply.
Proof. destruct reply as [| r rest]; [done | intros _; by exists r]. Qed.

(** One command: announce, send, wait, then report when the first reply
    carries an error. *)
Lemma wanted_task_block env c s :
  (∀ tr payload, wm_reply env tr payload ≠ []) →
  wanted_task env c s =
    (Ok (),
     set_log s
       (log s ++ dispatch_block c
          (reply_flag
             (wm_reply env
                (log s ++ log_events (sending_message c) journal.LOG_INFO)
                (directive c))))).
Proof.
  intros Hreply. unfold wanted_task.
  fold (directive c). fold (sending_message c). fold (failure_message c).
  rewrite (bind_ok _ _ _ _ _ (log_msg_eq _ _ s info_valid)).
  unfold wm_command, sleep. run_m.
  set (reply := wm_reply env _ _).
  destruct (first_item_reply_flag reply
              (set_log s
                 (((log s ++ log_events (sending_message c) journal.LOG_INFO)
                   ++ [EWmCommand (directive c)]) ++ [ESleep pacing_delay]))
              (Hreply _ _)) as (r & Hfirst & Hflag).
  unfold set_log in Hfirst. simpl in Hfirst. rewrite Hfirst, Hflag.
  unfold dispatch_block. destruct (reply_flag reply).
  - rewrite log_msg_eq by apply err_valid. unfold set_log. simpl.
    by rewrite <- !(assoc_L (++)).
  - unfold set_log. simpl. by rewrite <- !(assoc_L (++)).
Qed.

Lemma for_each_wanted env l :
  (∀ tr payload, wm_reply env tr payload ≠ []) →
  ∀ s, for_each l (wanted_task env) s =
         (Ok (), set_log s (log s ++ dispatch_blocks l
                                       (dispatch_flags env (log s) l))).
Proof.
  intros Hreply. induction l as [| c l IH]; intros s.
  - unfold set_log, dispatch_blocks. simpl. rewrite app_nil_r.
    by destruct s.
  - simpl for_each.
    rewrite (bind_ok _ _ _ _ _ (wanted_task_block env c s Hreply)).
    rewrite IH. unfold set_log, dispatch_blocks. simpl.
    by rewrite <- (assoc_L (++)).
Qed.

Lemma dispatch_flags_length env history l :
  length (dispatch_flags env history l) = length l.
Proof.
  revert history. induction l as [| c l IH]; intros history; simpl;
    [done | by rewrite IH].
Qed.

Lemma sends_app tr1 tr2 : sends (tr1 ++ tr2) = sends tr1 ++ sends tr2.
Proof.
  induction tr1 as [| ev tr1 IH]; [done |].
  destruct ev; simpl; by rewrite ?IH.
Qed.

Lemma reported_errors_app tr1 tr2 :
  reported_errors (tr1 ++ tr2) = reported_errors tr1 ++ reported_errors tr2.
Proof.
  induction tr1 as [| ev tr1 IH]; [done |].
  destruct ev; simpl; rewrite ?IH; try done.
  by destruct (priority =? journal.LOG_ERR).
Qed.

(** The sends of a sequence of blocks are the directives, in order. *)
Lemma sends_dispatch_blocks l flags :
  length flags = length l →
  sends (dispatch_blocks l flags) = directive <$> l.
Proof.
  revert flags. induction l as [| c l IH]; intros [| f flags] Hlen;
    try done.
  unfold dispatch_blocks in *. simpl. f_equal.
  rewrite sends_app, IH by (simpl in Hlen; lia).
  by destruct f.
Qed.

Lemma paced_dispatch_blocks l flags : paced (dispatch_blocks l flags) = true.
Proof.
  revert flags. induction l as [| c l IH]; intros [| f flags]; try done.
  unfold dispatch_blocks in *. simpl. destruct f; simpl; apply IH.
Qed.

Lemma errors_dispatch_blocks l flags :
  reported_errors (dispatch_blocks l flags)
  = failure_message <$> flagged_commands l flags.
Proof.
  revert flags. induction l as [| c l IH]; intros [| f flags]; try done.
  unfold dispatch_blocks, flagged_commands in *. simpl.
  rewrite reported_errors_app, IH.
  destruct f; simpl; [done |].
  by rewrite filter_cons_False by (simpl; discriminate).
Qed.

(** C5: when the window manager answers every directive with at least
    one reply, the general stage returns normally having appended one
    block of events per command of the general list, in list order.
    Each block announces the command, sends ["exec " + command], waits
    the pacing delay, and reports at error severity exactly when the
    error of the first reply is set.  So the sends are the directives in
    list order whatever the flags, every send is directly followed by the
    delay, and the reports are those of the flagged commands. *)
Theorem general_stage_dispatch (env : Env) (s : state) :
  (∀ tr payload, wm_reply env tr payload ≠ []) →
  general_stage env s =
    (Ok (), set_log s (log s ++ dispatch_blocks (wants s)
                                  (dispatch_flags env (log s) (wants s))))
  ∧ length (dispatch_flags env (log s) (wants s)) = length (wants s)
  ∧ sends (dispatch_blocks (wants s) (dispatch_flags env (log s) (wants s)))
    = (λ c, "exec " +:+ c) <$> wants s
  ∧ paced (dispatch_blocks (wants s) (dispatch_flags env (log s) (wants s)))
    = true
  ∧ reported_errors
      (dispatch_blocks (wants s) (dispatch_flags env (log s) (wants s)))
    = failure_message
        <$> flagged_commands (wants s)
              (dispatch_flags env (log s) (wants s)).
Proof.
  intros Hreply.
  split; [| split; [| split; [| split]]].
  - unfold general_stage.
    rewrite (bind_ok (gets wants) _ s (wants s) s eq_refl).
    by apply for_each_wanted.
  - apply dispatch_flags_length.
  - apply sends_dispatch_blocks, dispatch_flags_length.
  - apply paced_dispatch_blocks.
  - apply errors_dispatch_blocks.
Qed.

(** C5 on the general list [x; y] with a window manager that rejects
    [exec x]: the rejection is reported and [exec y] is sent all the
    same, each send followed by the delay. *)
Lemma general_stage_dispatch_witness :
  general_stage (mk_env false None sh_ok wm_rejects_x)
    {| wants := ["x"; "y"]; pre_list := []; weekend_list := []; log := [] |}
  = (Ok (),
     {| wants := ["x"; "y"]; pre_list := []; weekend_list := [];
        log := log_events (sending_message "x") journal.LOG_INFO
               ++ [EWmCommand "exec x"; ESleep 100]
               ++ log_events (failure_message "x") journal.LOG_ERR
               ++ log_events (sending_message "y") journal.LOG_INFO
               ++ [EWmCommand "exec y"; ESleep 100] |}).
Proof.
  refine (proj1 (general_stage_dispatch
                   (mk_env false None sh_ok wm_rejects_x)
                   {| wants := ["x"; "y"]; pre_list := [];
                      weekend_list := []; log := [] |} _)).
  intros tr payload. simpl. unfold wm_rejects_x.
  destruct (String.eqb payload "exec x"); discriminate.
Defined.

(** * Further properties of the script *)

(** ** Selection on whole documents *)

(** Reading a document that has every key the moment asks for. *)
Lemma load_config_complete env path cfg starts cs pv ws wk workday weekend :
  config_at env path = Some cfg →
  cfg !! "autostarts" = Some starts →
  starts !! "common" = Some (YSeq cs) →
  starts !! "pre" = Some pv →
  (workday = true → starts !! "work" = Some (YSeq ws)) →
  (weekend = true → starts !! "weekend" = Some (YSeq wk)) →
  load_config env path workday weekend initial =
    (Ok (),
     {| wants := cs ++ (if workday then ws else []);
        pre_list := items_of pv;
        weekend_list := if weekend then wk else [];
        log := [EPrint (found_message path)] |}).
Proof.
  intros Hcfg Hstarts Hcommon Hpre Hwork Hweekend. run_config.
  rewrite Hcfg. simpl. rewrite Hstarts, Hcommon. simpl. rewrite Hpre.
  destruct pv as [| [| p ps]]; simpl; rewrite ?Hpre; simpl;
    destruct workday, weekend; simpl;
    rewrite ?(Hwork eq_refl), ?(Hweekend eq_refl); simpl;
    rewrite ?(Hweekend eq_refl), ?app_nil_r; reflexivity.
Qed.

(** X1: a document whose [autostarts] holds a [common] sequence, a
    [pre] value, a [work] sequence if the moment is a work day and a
    [weekend] sequence if it is a weekend day is read without any report:
    the general list is [common] followed by [work] on a work day and
    [common] alone otherwise, the pre list is [pre] (null counting as
    empty), the weekend list is [weekend] on a weekend day and empty
    otherwise.  Keys the moment does not ask for need not exist. *)
Theorem complete_selection (env : Env) (path : string)
    (cfg : gmap string (gmap string yaml_value))
    (starts : gmap string yaml_value) (cs : list string) (pv : yaml_value)
    (ws wk : list string) (workday weekend : bool) :
  config_at env path = Some cfg →
  cfg !! "autostarts" = Some starts →
  starts !! "common" = Some (YSeq cs) →
  starts !! "pre" = Some pv →
  (workday = true → starts !! "work" = Some (YSeq ws)) →
  (weekend = true → starts !! "weekend" = Some (YSeq wk)) →
  load_config env path workday weekend initial =
    (Ok (),
     {| wants := cs ++ (if workday then ws else []);
        pre_list := items_of pv;
        weekend_list := if weekend then wk else [];
        log := [EPrint (found_message path)] |}).
Proof. apply load_config_complete. Qed.

(** X1 on a document with only [pre] and [common], off work hours on a
    week day, and on the sample document on a work day. *)
Lemma complete_selection_witness :
  load_config (quiet_env (Some (document starts_common_only)))
      config_path_0 false false initial =
    (Ok (), {| wants := ["x"; "y"]; pre_list := []; weekend_list := [];
               log := [EPrint (found_message config_path_0)] |})
  ∧ load_config (quiet_env (Some (document sample_starts)))
        config_path_0 true false initial =
      (Ok (), {| wants := ["b"; "d"]; pre_list := ["a"]; weekend_list := [];
                 log := [EPrint (found_message config_path_0)] |}).
Proof.
  split.
  - apply (complete_selection
             (quiet_env (Some (document starts_common_only))) config_path_0
             (document starts_common_only) starts_common_only
             ["x"; "y"] (YSeq []) [] [] false false);
      (reflexivity || discriminate).
  - apply (complete_selection
             (quiet_env (Some (document sample_starts))) config_path_0
             (document sample_starts) sample_starts
             ["b"] (YSeq ["a"]) ["d"] [] true false);
      (reflexivity || discriminate).
Defined.

(** X2: whatever the document holds and whatever goes wrong while it is
    read, off a weekend the weekend list stays empty, and off work hours
    a document with a [common] sequence gives that sequence as the
    general list. *)
Theorem moment_excludes (env : Env) (path : string) (workday weekend : bool) :
  weekend_list (load_config env path workday false initial).2 = []
  ∧ (∀ cfg starts cs,
       config_at env path = Some cfg →
       cfg !! "autostarts" = Some starts →
       starts !! "common" = Some (YSeq cs) →
       wants (load_config env path false weekend initial).2 = cs).
Proof.
  split.
  - run_config. destruct (config_at env path) as [cfg |]; [| done]. simpl.
    destruct (cfg !! "autostarts") as [starts |]; simpl; [| done].
    destruct (starts !! "common") as [[| cs] |]; simpl; try done.
    destruct (starts !! "pre") as [[| [| p ps]] |] eqn:Hpre; simpl;
      rewrite ?Hpre; simpl; try done;
      destruct workday; simpl; try done;
      destruct (starts !! "work") as [[| ws] |]; simpl; done.
  - intros cfg starts cs Hcfg Hstarts Hcommon. run_config.
    rewrite Hcfg. simpl. rewrite Hstarts, Hcommon. simpl.
    destruct (starts !! "pre") as [[| [| p ps]] |] eqn:Hpre; simpl;
      rewrite ?Hpre; simpl; try done;
      destruct weekend; simpl; try done;
      destruct (starts !! "weekend") as [[| wk] |]; simpl; done.
Qed.

(** X2 on the sample document: a Wednesday selects no weekend command,
    and a Saturday selects no work command. *)
Lemma moment_excludes_witness :
  weekend_list (load_config (quiet_env (Some (document sample_starts)))
                  config_path_0 true false initial).2 = []
  ∧ wants (load_config (quiet_env (Some (document sample_starts)))
             config_path_0 false true initial).2 = ["b"].
Proof.
  split.
  - apply (proj1 (moment_excludes (quiet_env (Some (document sample_starts)))
                    config_path_0 true true)).
  - apply (proj2 (moment_excludes (quiet_env (Some (document sample_starts)))
                    config_path_0 true true)
             (document sample_starts) sample_starts ["b"]);
      reflexivity.
Defined.

(** X3: with the file [~/.vacation] present, at every moment, a document
    with a [common] sequence, a [pre] value and, on weekend days, a
    [weekend] sequence is read without any report and the general list
    is the [common] sequence alone: the [work] key is not read. *)
Theorem vacation_selects_common_only (env : Env) (path : string)
    (now : datetime) (cfg : gmap string (gmap string yaml_value))
    (starts : gmap string yaml_value) (cs : list string) (pv : yaml_value)
    (wk : list string) :
  isfile env (expanduser env "~/.vacation") = true →
  config_at env path = Some cfg →
  cfg !! "autostarts" = Some starts →
  starts !! "common" = Some (YSeq cs) →
  starts !! "pre" = Some pv →
  (is_weekend now = true → starts !! "weekend" = Some (YSeq wk)) →
  select env path now =
    (Ok (),
     {| wants := cs; pre_list := items_of pv;
        weekend_list := if is_weekend now then wk else [];
        log := [EPrint (found_message path)] |}).
Proof.
  intros Hvac Hcfg Hstarts Hcommon Hpre Hweekend.
  unfold select, is_workday. rewrite Hvac.
  rewrite (load_config_complete env path cfg starts cs pv [] wk false
             (is_weekend now) Hcfg Hstarts Hcommon Hpre
             ltac:(discriminate) Hweekend).
  simpl. by rewrite app_nil_r.
Qed.

(** X3 on a Wednesday at 9 with the sample document: on vacation only
    [b] is selected. *)
Lemma vacation_selects_common_only_witness :
  select (mk_env true (Some (document sample_starts)) sh_ok wm_ok)
    config_path_0 wednesday_9am =
  (Ok (), {| wants := ["b"]; pre_list := ["a"]; weekend_list := [];
             log := [EPrint (found_message config_path_0)] |}).
Proof.
  apply (vacation_selects_common_only
           (mk_env true (Some (document sample_starts)) sh_ok wm_ok)
           config_path_0 wednesday_9am (document sample_starts) sample_starts
           ["b"] (YSeq ["a"]) []);
    (reflexivity || discriminate).
Defined.

(** ** Runs that end while the document is read *)

Lemma main_load_raise env path now e s :
  load_config env path (is_workday env now) (is_weekend now) initial
    = (Raise e, s) →
  main env path now initial = (Raise e, s).
Proof. intros Hload. unfold main. by rewrite (bind_raise _ _ _ _ _ Hload). Qed.

(** X4: a null where the script iterates a list ends the run with a
    [TypeError] that no handler catches, before the connection to the
    window manager is opened and before any command is run.  A null
    [common] does so at every moment, with empty lists; a null [work]
    does so on a work day, after [common] and [pre] were collected. *)
Theorem null_list_aborts (env : Env) (path : string) (now : datetime)
    (cfg : gmap string (gmap string yaml_value))
    (starts : gmap string yaml_value) :
  config_at env path = Some cfg →
  cfg !! "autostarts" = Some starts →
  (starts !! "common" = Some YNull →
     main env path now initial =
       (Raise (TypeError type_error_message),
        set_log initial [EPrint (found_message path)]))
  ∧ (∀ cs pv,
       starts !! "common" = Some (YSeq cs) →
       starts !! "pre" = Some pv →
       is_workday env now = true →
       starts !! "work" = Some YNull →
       main env path now initial =
         (Raise (TypeError type_error_message),
          {| wants := cs; pre_list := items_of pv; weekend_list := [];
             log := [EPrint (found_message path)] |})).
Proof.
  intros Hcfg Hstarts. split.
  - intros Hcommon. apply main_load_raise. run_config.
    rewrite Hcfg. simpl. by rewrite Hstarts, Hcommon.
  - intros cs pv Hcommon Hpre Hworkday Hwork. apply main_load_raise.
    rewrite Hworkday. run_config.
    rewrite Hcfg. simpl. rewrite Hstarts, Hcommon. simpl. rewrite Hpre.
    destruct pv as [| [| p ps]]; simpl; rewrite ?Hpre; simpl;
      by rewrite Hwork.
Qed.

(** X4 on a Wednesday at 9: the document with a null [common] and the
    document with a null [work]. *)
Lemma null_list_aborts_witness :
  main (quiet_env (Some (document starts_null_common)))
       config_path_0 wednesday_9am initial =
    (Raise (TypeError type_error_message),
     set_log initial [EPrint (found_message config_path_0)])
  ∧ main (quiet_env (Some (document starts_null_work)))
         config_path_0 wednesday_9am initial =
      (Raise (TypeError type_error_message),
       {| wants := ["b"]; pre_list := ["a"]; weekend_list := [];
          log := [EPrint (found_message config_path_0)] |}).
Proof.
  split.
  - apply (proj1 (null_list_aborts
                    (quiet_env (Some (document starts_null_common)))
                    config_path_0 wednesday_9am
                    (document starts_null_common) starts_null_common
                    eq_refl eq_refl)).
    reflexivity.
  - apply (proj2 (null_list_aborts
                    (quiet_env (Some (document starts_null_work)))
                    config_path_0 wednesday_9am
                    (document starts_null_work) starts_null_work
                    eq_refl eq_refl) ["b"] (YSeq ["a"]));
      reflexivity.
Defined.



(** ** What every computation of the script keeps *)

#[local] Instance grows_preorder K : PreOrder (grows K).
Proof.
  split.
  - intros s. exists []. by rewrite app_nil_r.
  - intros s1 s2 s3 (n1 & H1 & F1) (n2 & H2 & F2). exists (n1 ++ n2).
    rewrite H2, H1, <- (assoc_L (++)), forallb_app, F1, F2. done.
Qed.

#[local] Instance same_lists_preorder : PreOrder same_lists.
Proof.
  split.
  - intros s. by unfold same_lists.
  - intros s1 s2 s3 (A1 & B1 & C1) (A2 & B2 & C2). unfold same_lists.
    by rewrite A2, B2, C2.
Qed.

Section Steps.
Context (R : state → state → Prop) `{!PreOrder R}.

Lemma steps_pure {A} (m : M A) : (∀ s, (m s).2 = s) → steps R m.
Proof. intros Hm s. by rewrite Hm. Qed.

Lemma steps_ret {A} (a : A) : steps R (mret a).
Proof. by apply steps_pure. Qed.

Lemma steps_bind {A B} (m : M A) (f : A → M B) :
  steps R m → (∀ a, steps R (f a)) → steps R (m ≫= f).
Proof.
  intros Hm Hf s. unfold mbind, M_bind.
  specialize (Hm s). destruct (m s) as [[a | e] s']; simpl in *; [| done].
  by etrans; [| apply Hf].
Qed.

Lemma steps_try {A} (body : M A) (handler : exn → option (M A)) :
  steps R body →
  (∀ e h, handler e = Some h → steps R h) →
  steps R (try_except body handler).
Proof.
  intros Hbody Hh s. unfold try_except.
  specialize (Hbody s). destruct (body s) as [[a | e] s']; simpl in *;
    [done |].
  destruct (handler e) as [h |] eqn:He; [| done].
  by etrans; [| apply (Hh e h He)].
Qed.

Lemma steps_for_each {A} (l : list A) (body : A → M unit) :
  (∀ x, steps R (body x)) → steps R (for_each l body).
Proof.
  intros Hbody. induction l as [| x l IH]; simpl.
  - apply steps_ret.
  - by apply steps_bind.
Qed.

End Steps.


Lemma same_lists_emit ev : steps same_lists (emit ev).
Proof. by intros s. Qed.



Lemma same_lists_log_message message level ident :
  steps same_lists (log_message message level ident).
Proof.
  unfold log_message. case_decide.
  - by apply steps_pure; [apply _ |].
  - apply steps_bind; [apply _ | | intros _]; apply same_lists_emit.
Qed.






Lemma same_lists_subprocess_run env cmd check :
  steps same_lists (subprocess_run env cmd check).
Proof.
  intros s. unfold subprocess_run. simpl.
  destruct (shell env (log s) cmd); [destruct (check && _) |]; done.
Qed.

Lemma same_lists_check_output env cmd :
  steps same_lists (subprocess_check_output env cmd).
Proof.
  intros s. unfold subprocess_check_output. simpl.
  destruct (shell env (log s) cmd); [destruct (negb _) |]; done.
Qed.


Lemma same_lists_pre_task env item : steps same_lists (pre_task env item).
Proof.
  unfold pre_task, log_msg. apply steps_try; [apply _ | |].
  - apply steps_bind; [apply _ | apply same_lists_log_message | intros _].
    apply steps_bind; [apply _ | apply same_lists_subprocess_run | intros _].
    apply steps_ret; apply _.
  - intros e h He. destruct e; simplify_eq/=.
    apply same_lists_log_message.
Qed.


Lemma same_lists_weekend_task env item :
  steps same_lists (weekend_task env item).
Proof.
  unfold weekend_task, log_msg. apply steps_try; [apply _ | |].
  - apply steps_bind; [apply _ | apply same_lists_log_message | intros _].
    apply steps_bind; [apply _ | apply same_lists_check_output | intros _].
    apply steps_ret; apply _.
  - intros e h He. destruct e; simplify_eq/=.
    apply same_lists_log_message.
Qed.


Lemma same_lists_wanted_task env item :
  steps same_lists (wanted_task env item).
Proof.
  unfold wanted_task, log_msg, wm_command, sleep, first_item.
  apply steps_bind; [apply _ | apply same_lists_log_message | intros _].
  apply steps_bind; [apply _ | by intros s | intros reply].
  apply steps_bind; [apply _ | apply same_lists_emit | intros _].
  apply steps_bind; [apply _ | | intros r].
  { destruct reply; by apply steps_pure; [apply _ |]. }
  destruct (error_set r).
  - apply same_lists_log_message.
  - apply steps_ret; apply _.
Qed.

Lemma steps_gets R `{!PreOrder R} {A} (f : state → A) : steps R (gets f).
Proof. by apply steps_pure. Qed.




(** Everything that follows the reading of the configuration. *)
Lemma same_lists_stages env weekend :
  steps same_lists
    (emit EConnection ;; pre_stage env ;; weekend_stage env weekend ;;
     general_stage env ;; emit EMainQuit).
Proof.
  apply steps_bind; [apply _ | apply same_lists_emit | intros _].
  apply steps_bind; [apply _ | | intros _].
  { unfold pre_stage.
    apply steps_bind; [apply _ | apply steps_gets; apply _ | intros l].
    apply steps_for_each; [apply _ | apply same_lists_pre_task]. }
  apply steps_bind; [apply _ | | intros _].
  { unfold weekend_stage. destruct weekend; [| by apply steps_ret; apply _].
    apply steps_bind; [apply _ | apply steps_gets; apply _ | intros l].
    apply steps_for_each; [apply _ | apply same_lists_weekend_task]. }
  apply steps_bind; [apply _ | | intros _].
  { unfold general_stage.
    apply steps_bind; [apply _ | apply steps_gets; apply _ | intros l].
    apply steps_for_each; [apply _ | apply same_lists_wanted_task]. }
  apply same_lists_emit.
Qed.

(** ** The exceptions that leave each part *)




















(** X7: the stages never change the lists that were selected: after the
    run, returned or raised, the general, pre and weekend lists are those
    the reading of the configuration left. *)
Theorem run_keeps_selection (env : Env) (path : string) (now : datetime) :
  same_lists (select env path now).2 (main env path now initial).2.
Proof.
  rewrite main_after_select.
  destruct (select env path now) as [[[] | e] s]; simpl; [| done].
  apply same_lists_stages.
Qed.

(** ** The order of a run *)



(** ** The pre stage on any pre list *)

Lemma for_each_pre_events env l :
  (∀ tr cmd, ∃ rc out, shell env tr cmd = Exited rc out) →
  ∀ s, for_each l (pre_task env) s
       = (Ok (), set_log s (log s ++ pre_events l)).
Proof.
  intros Hsh. induction l as [| c l IH]; intros s.
  - unfold set_log, pre_events. simpl. rewrite app_nil_r. by destruct s.
  - destruct (Hsh (log s ++ log_events (pre_running_message c)
                                        journal.LOG_INFO) c)
      as (rc & out & Hc).
    simpl for_each.
    rewrite (bind_ok _ _ _ _ _ (pre_task_exited env c s rc out Hc)).
    rewrite IH. unfold set_log, pre_events. simpl.
    by rewrite <- !(assoc_L (++)).
Qed.

Lemma reported_errors_pre_events l : reported_errors (pre_events l) = [].
Proof. induction l as [| c l IH]; [done | exact IH]. Qed.

Lemma shell_runs_pre_events l : shell_runs (pre_events l) = l.
Proof.
  induction l as [| c l IH]; [done |].
  change (shell_runs (pre_events (c :: l)))
    with (c :: shell_runs (pre_events l)).
  by rewrite IH.
Qed.

Lemma sends_pre_events l : sends (pre_events l) = [].
Proof. induction l as [| c l IH]; [done | exact IH]. Qed.

Lemma pre_stage_events env s :
  (∀ tr cmd, ∃ rc out, shell env tr cmd = Exited rc out) →
  pre_stage env s = (Ok (), set_log s (log s ++ pre_events (pre_list s))).
Proof.
  intros Hsh. unfold pre_stage.
  rewrite (bind_ok (gets pre_list) _ s (pre_list s) s eq_refl).
  by apply for_each_pre_events.
Qed.

(** X9: when the shell starts for every command, the pre stage returns
    normally and its events are the same whatever the exit statuses are:
    for each command of the pre list, in order, the announcement at info
    severity and the run.  Nothing is reported at error severity and
    nothing is sent to the window manager. *)
Theorem pre_stage_ignores_status (env : Env) (s : state) :
  (∀ tr cmd, ∃ rc out, shell env tr cmd = Exited rc out) →
  pre_stage env s = (Ok (), set_log s (log s ++ pre_events (pre_list s)))
  ∧ shell_runs (pre_events (pre_list s)) = pre_list s
  ∧ reported_errors (pre_events (pre_list s)) = []
  ∧ sends (pre_events (pre_list s)) = [].
Proof.
  intros Hsh. split; [| split; [| split]].
  - by apply pre_stage_events.
  - apply shell_runs_pre_events.
  - apply reported_errors_pre_events.
  - apply sends_pre_events.
Qed.

(** X9 with the pre list [false; true] and a shell in which [false]
    exits with status 1. *)
Lemma pre_stage_ignores_status_witness :
  pre_stage (mk_env false None sh_false_fails wm_ok)
    (state_with [] ["false"; "true"] [])
  = (Ok (),
     set_log (state_with [] ["false"; "true"] [])
       (log_events (pre_running_message "false") journal.LOG_INFO
        ++ [ESubprocessRun "false"]
        ++ log_events (pre_running_message "true") journal.LOG_INFO
        ++ [ESubprocessRun "true"])).
Proof.
  refine (proj1 (pre_stage_ignores_status
                   (mk_env false None sh_false_fails wm_ok)
                   (state_with [] ["false"; "true"] []) _)).
  intros tr cmd. simpl. unfold sh_false_fails.
  destruct (String.eqb cmd "false"); eauto.
Defined.

(** X10: when the shell cannot be started for the first command of the
    pre list, the pre stage raises [OSError] after announcing that
    command; no other command of the list is announced or run. *)
Theorem pre_stage_spawn_failure (env : Env) (s : state) (c : string)
    (rest : list string) (msg : string) :
  pre_list s = c :: rest →
  shell env (log s ++ log_events (pre_running_message c) journal.LOG_INFO) c
    = SpawnFailed msg →
  pre_stage env s =
    (Raise (OSError msg),
     set_log s (log s ++ log_events (pre_running_message c) journal.LOG_INFO
                ++ [ESubprocessRun c])).
Proof.
  intros Hl Hsh. unfold pre_stage.
  rewrite (bind_ok (gets pre_list) _ s (pre_list s) s eq_refl), Hl.
  simpl for_each.
  by rewrite (bind_raise _ _ _ _ _ (pre_task_spawn_failed env c s msg Hsh)).
Qed.

(** X10 with the pre list [false; true] and no shell. *)
Lemma pre_stage_spawn_failure_witness :
  pre_stage (mk_env false None sh_no_shell wm_ok)
    (state_with [] ["false"; "true"] [])
  = (Raise (OSError "[Errno 2] No such file or directory: '/bin/sh'"),
     set_log (state_with [] ["false"; "true"] [])
       (log_events (pre_running_message "false") journal.LOG_INFO
        ++ [ESubprocessRun "false"])).
Proof.
  apply (pre_stage_spawn_failure (mk_env false None sh_no_shell wm_ok)
           (state_with [] ["false"; "true"] []) "false" ["true"]);
    reflexivity.
Defined.

(** ** The weekend stage on any weekend list *)

Lemma weekend_task_exited env c s rc out :
  shell env (log s ++ log_events (weekend_running_message c) journal.LOG_INFO)
        c = Exited rc out →
  weekend_task env c s =
    (Ok (), set_log s (log s ++ weekend_block env c (rc, out))).
Proof.
  intros Hsh. unfold weekend_task, try_except.
  rewrite (bind_ok _ _ _ _ _ (log_msg_eq _ _ s info_valid)).
  unfold subprocess_check_output. run_m. fold (weekend_running_message c).
  rewrite Hsh. unfold weekend_block. simpl.
  destruct (rc =? 0); simpl.
  - unfold set_log. simpl. by rewrite <- !(assoc_L (++)).
  - rewrite log_msg_eq by apply err_valid. unfold set_log. simpl.
    by rewrite <- !(assoc_L (++)).
Qed.

Lemma for_each_weekend env l :
  (∀ tr cmd, ∃ rc out, shell env tr cmd = Exited rc out) →
  ∀ s, for_each l (weekend_task env) s
       = (Ok (), set_log s (log s ++ weekend_blocks env l
                                       (weekend_exits env (log s) l))).
Proof.
  intros Hsh. induction l as [| c l IH]; intros s.
  - unfold set_log, weekend_blocks. simpl. rewrite app_nil_r. by destruct s.
  - destruct (Hsh (log s ++ log_events (weekend_running_message c)
                                        journal.LOG_INFO) c)
      as (rc & out & Hc).
    simpl for_each.
    rewrite (bind_ok _ _ _ _ _ (weekend_task_exited env c s rc out Hc)).
    rewrite IH. unfold set_log, weekend_blocks. simpl. rewrite Hc. simpl.
    by rewrite <- (assoc_L (++)).
Qed.

Lemma weekend_exits_length env history l :
  length (weekend_exits env history l) = length l.
Proof.
  revert history. induction l as [| c l IH]; intros history; simpl;
    [done | by rewrite IH].
Qed.

Lemma shell_runs_weekend_blocks env l exits :
  length exits = length l →
  shell_runs (weekend_blocks env l exits) = l.
Proof.
  revert exits. induction l as [| c l IH]; intros [| x exits] Hlen;
    try done.
  unfold weekend_blocks in *. simpl. f_equal.
  rewrite shell_runs_app, IH by (simpl in Hlen; lia).
  by destruct (x.1 =? 0).
Qed.

Lemma errors_weekend_blocks env l exits :
  reported_errors (weekend_blocks env l exits) = failure_reports env l exits.
Proof.
  revert exits. induction l as [| c l IH]; intros [| x exits]; try done.
  unfold weekend_blocks, failure_reports in *. simpl.
  rewrite reported_errors_app, IH.
  destruct (Z.eqb_spec x.1 0) as [Hz | Hnz]; simpl.
  - by rewrite filter_cons_False by (simpl; lia).
  - by rewrite filter_cons_True by done.
Qed.

(** X11: off a weekend the weekend stage does nothing, whatever the
    weekend list holds.  On a weekend, when the shell starts for every
    command, the stage returns normally having run every command of the
    weekend list in list order; a command that exits with a non-zero
    status is reported at error severity with the command line and the
    output it wrote, and the commands after it still run. *)
Theorem weekend_stage_reports (env : Env) (s : state) :
  (∀ tr cmd, ∃ rc out, shell env tr cmd = Exited rc out) →
  weekend_stage env false s = (Ok (), s)
  ∧ weekend_stage env true s =
      (Ok (), set_log s
                (log s ++ weekend_blocks env (weekend_list s)
                            (weekend_exits env (log s) (weekend_list s))))
  ∧ shell_runs (weekend_blocks env (weekend_list s)
                  (weekend_exits env (log s) (weekend_list s)))
    = weekend_list s
  ∧ reported_errors (weekend_blocks env (weekend_list s)
                       (weekend_exits env (log s) (weekend_list s)))
    = failure_reports env (weekend_list s)
        (weekend_exits env (log s) (weekend_list s)).
Proof.
  intros Hsh. split; [done |]. split; [| split].
  - unfold weekend_stage.
    rewrite (bind_ok (gets weekend_list) _ s (weekend_list s) s eq_refl).
    by apply for_each_weekend.
  - apply shell_runs_weekend_blocks, weekend_exits_length.
  - apply errors_weekend_blocks.
Qed.

(** X11 with the weekend list [false; true] and a shell in which [false]
    exits with status 1 after writing [oops]. *)
Lemma weekend_stage_reports_witness :
  weekend_stage (mk_env false None sh_false_writes wm_ok) true
    (state_with [] [] ["false"; "true"])
  = (Ok (),
     set_log (state_with [] [] ["false"; "true"])
       (log_events (weekend_running_message "false") journal.LOG_INFO
        ++ [ECheckOutput "false"]
        ++ log_events ("Exception during " +:+ Py.dq +:+ "false" +:+ Py.dq
                       +:+ ": b'oops'") journal.LOG_ERR
        ++ log_events (weekend_running_message "true") journal.LOG_INFO
        ++ [ECheckOutput "true"])).
Proof.
  refine (proj1 (proj2 (weekend_stage_reports
                          (mk_env false None sh_false_writes wm_ok)
                          (state_with [] [] ["false"; "true"]) _))).
  intros tr cmd. simpl. unfold sh_false_writes.
  destruct (String.eqb cmd "false"); eauto.
Defined.

(** ** Replies of the window manager *)

(** X12: when the window manager answers the first directive of the
    general list with an empty list of replies, the general stage raises
    [IndexError] after that directive was sent and the delay waited; no
    other command of the list is sent. *)
Theorem empty_reply_stops_dispatch (env : Env) (s : state) (c : string)
    (rest : list string) :
  wants s = c :: rest →
  wm_reply env (log s ++ log_events (sending_message c) journal.LOG_INFO)
           (directive c) = [] →
  general_stage env s =
    (Raise (IndexError "list index out of range"),
     set_log s (log s ++ log_events (sending_message c) journal.LOG_INFO
                ++ [EWmCommand (directive c); ESleep pacing_delay])).
Proof.
  intros Hl Hreply. unfold general_stage.
  rewrite (bind_ok (gets wants) _ s (wants s) s eq_refl), Hl.
  simpl for_each. unfold wanted_task.
  fold (directive c). fold (sending_message c).
  unfold mbind at 1. unfold M_bind.
  rewrite (bind_ok _ _ _ _ _ (log_msg_eq _ _ s info_valid)).
  unfold wm_command, sleep, first_item. run_m. rewrite Hreply.
  unfold set_log. simpl. by rewrite <- !(assoc_L (++)).
Qed.

(** X12 with the general list [x; y] and a window manager that answers
    [exec x] with no reply. *)
Lemma empty_reply_stops_dispatch_witness :
  general_stage (mk_env false None sh_ok wm_silent_on_x)
    (state_with ["x"; "y"] [] [])
  = (Raise (IndexError "list index out of range"),
     set_log (state_with ["x"; "y"] [] [])
       (log_events (sending_message "x") journal.LOG_INFO
        ++ [EWmCommand "exec x"; ESleep 100])).
Proof.
  apply (empty_reply_stops_dispatch
           (mk_env false None sh_ok wm_silent_on_x)
           (state_with ["x"; "y"] [] []) "x" ["y"]);
    reflexivity.
Defined.

(** X13: whether a directive is reported depends on the first reply
    alone, and there on the error message alone: it is reported exactly
    when that message is a non-empty string.  The [success] flag and the
    replies after the first are never looked at. *)
Theorem first_reply_decides (env : Env) (c : string) (s : state)
    (r : CommandReply) (others : list CommandReply) :
  wm_reply env (log s ++ log_events (sending_message c) journal.LOG_INFO)
           (directive c) = r :: others →
  wanted_task env c s =
    (Ok (),
     set_log s
       (log s ++ dispatch_block c
                   match error r with
                   | Some (String _ _) => true
                   | _ => false
                   end)).
Proof.
  intros Hreply. unfold wanted_task.
  fold (directive c). fold (sending_message c). fold (failure_message c).
  rewrite (bind_ok _ _ _ _ _ (log_msg_eq _ _ s info_valid)).
  unfold wm_command, sleep, first_item. run_m. rewrite Hreply.
  unfold error_set, dispatch_block.
  destruct (error r) as [[| ch msg] |]; simpl.
  - unfold set_log. simpl. by rewrite <- !(assoc_L (++)).
  - rewrite log_msg_eq by apply err_valid. unfold set_log. simpl.
    by rewrite <- !(assoc_L (++)).
  - unfold set_log. simpl. by rewrite <- !(assoc_L (++)).
Qed.

(** X13 with a first reply that signals failure without a message and a
    second reply that carries one: nothing is reported. *)
Lemma first_reply_decides_witness :
  wanted_task (mk_env false None sh_ok wm_unexplained) "x" initial
  = (Ok (),
     set_log initial
       (log_events (sending_message "x") journal.LOG_INFO
        ++ [EWmCommand "exec x"; ESleep 100])).
Proof.
  apply (first_reply_decides (mk_env false None sh_ok wm_unexplained)
           "x" initial unexplained_failure [failed_reply]).
  reflexivity.
Defined.

(** ** A run in which nothing fails *)

Lemma weekend_blocks_quiet env l :
  (∀ tr cmd, ∃ out, shell env tr cmd = Exited 0 out) →
  ∀ history,
    weekend_blocks env l (weekend_exits env history l)
    = quiet_weekend_events l.
Proof.
  intros Hsh. induction l as [| c l IH]; intros history; [done |].
  unfold weekend_blocks, quiet_weekend_events in *. simpl.
  destruct (Hsh (history ++ log_events (weekend_running_message c)
                                       journal.LOG_INFO) c) as (out & Hc).
  rewrite Hc. simpl. by rewrite IH.
Qed.

Lemma dispatch_blocks_quiet env l :
  (∀ tr p, ∃ r others, wm_reply env tr p = r :: others
                       ∧ error_set r = false) →
  ∀ history,
    dispatch_blocks l (dispatch_flags env history l)
    = quiet_dispatch_events l.
Proof.
  intros Hwm. induction l as [| c l IH]; intros history; [done |].
  unfold dispatch_blocks, quiet_dispatch_events in *. simpl.
  destruct (Hwm (history ++ log_events (sending_message c) journal.LOG_INFO)
              (directive c)) as (r & others & Hc & Hr).
  rewrite Hc. simpl. rewrite Hr. simpl. by rewrite IH.
Qed.

Lemma emit_eq ev s : emit ev s = (Ok (), set_log s (log s ++ [ev])).
Proof. reflexivity. Qed.

Lemma weekend_stage_quiet env (weekend : bool) (wk : list string) s :
  (∀ tr cmd, ∃ out, shell env tr cmd = Exited 0 out) →
  weekend_list s = (if weekend then wk else []) →
  weekend_stage env weekend s
  = (Ok (), set_log s (log s ++ quiet_weekend_events (weekend_list s))).
Proof.
  intros Hsh Hl. unfold weekend_stage. destruct weekend.
  - rewrite (bind_ok (gets weekend_list) _ s (weekend_list s) s eq_refl).
    rewrite for_each_weekend.
    + by rewrite weekend_blocks_quiet.
    + intros tr cmd. destruct (Hsh tr cmd) as (out & Hc). eauto.
  - rewrite Hl. unfold set_log. simpl. rewrite app_nil_r. by destruct s.
Qed.

Lemma general_stage_quiet env s :
  (∀ tr p, ∃ r others, wm_reply env tr p = r :: others
                       ∧ error_set r = false) →
  general_stage env s
  = (Ok (), set_log s (log s ++ quiet_dispatch_events (wants s))).
Proof.
  intros Hwm. unfold general_stage.
  rewrite (bind_ok (gets wants) _ s (wants s) s eq_refl).
  rewrite for_each_wanted.
  - by rewrite dispatch_blocks_quiet.
  - intros tr p. destruct (Hwm tr p) as (r & others & Hc & _).
    by rewrite Hc.
Qed.

(** X14: a run in which nothing fails.  The document holds every key
    the moment asks for, every shell command exits with status 0 and the
    first reply to every directive carries no error.  Then the run
    returns normally and its events are, in this order: the message that
    the configuration was found, the opening of the connection, each pre
    command announced and run, on a weekend each weekend command
    announced and run, each general command ([common], then [work] on a
    work day) announced, sent and followed by the delay, and the quit.
    Nothing is reported at error severity. *)
Theorem healthy_run (env : Env) (path : string) (now : datetime)
    (cfg : gmap string (gmap string yaml_value))
    (starts : gmap string yaml_value) (cs : list string) (pv : yaml_value)
    (ws wk : list string) :
  config_at env path = Some cfg →
  cfg !! "autostarts" = Some starts →
  starts !! "common" = Some (YSeq cs) →
  starts !! "pre" = Some pv →
  (is_workday env now = true → starts !! "work" = Some (YSeq ws)) →
  (is_weekend now = true → starts !! "weekend" = Some (YSeq wk)) →
  (∀ tr cmd, ∃ out, shell env tr cmd = Exited 0 out) →
  (∀ tr p, ∃ r others, wm_reply env tr p = r :: others
                       ∧ error_set r = false) →
  main env path now initial =
    (Ok (),
     {| wants := cs ++ (if is_workday env now then ws else []);
        pre_list := items_of pv;
        weekend_list := if is_weekend now then wk else [];
        log := [EPrint (found_message path); EConnection]
               ++ pre_events (items_of pv)
               ++ quiet_weekend_events (if is_weekend now then wk else [])
               ++ quiet_dispatch_events
                    (cs ++ (if is_workday env now then ws else []))
               ++ [EMainQuit] |})
  ∧ reported_errors (log (main env path now initial).2) = [].
Proof.
  intros Hcfg Hstarts Hcommon Hpre Hwork Hweekend Hsh Hwm.
  assert (Hexits : ∀ tr cmd, ∃ rc out, shell env tr cmd = Exited rc out).
  { intros tr cmd. destruct (Hsh tr cmd) as (out & Hc). eauto. }
  assert (Hmain : main env path now initial =
    (Ok (),
     {| wants := cs ++ (if is_workday env now then ws else []);
        pre_list := items_of pv;
        weekend_list := if is_weekend now then wk else [];
        log := [EPrint (found_message path); EConnection]
               ++ pre_events (items_of pv)
               ++ quiet_weekend_events (if is_weekend now then wk else [])
               ++ quiet_dispatch_events
                    (cs ++ (if is_workday env now then ws else []))
               ++ [EMainQuit] |})).
  { unfold main.
    rewrite (bind_ok _ _ _ _ _
               (load_config_complete env path cfg starts cs pv ws wk _ _
                  Hcfg Hstarts Hcommon Hpre Hwork Hweekend)).
    rewrite (bind_ok _ _ _ _ _ (emit_eq EConnection _)).
    rewrite (bind_ok _ _ _ _ _ (pre_stage_events env _ Hexits)).
    erewrite bind_ok;
      [| apply (weekend_stage_quiet env (is_weekend now) wk);
         [exact Hsh | reflexivity]].
    rewrite (bind_ok _ _ _ _ _ (general_stage_quiet env _ Hwm)).
    rewrite emit_eq. unfold set_log. simpl.
    by rewrite <- !(assoc_L (++)). }
  split; [exact Hmain |].
  rewrite Hmain. simpl.
  rewrite !reported_errors_app, reported_errors_pre_events.
  assert (Hq : ∀ l, reported_errors (quiet_weekend_events l) = []).
  { induction l as [| c l IH]; [done | exact IH]. }
  assert (Hd : ∀ l, reported_errors (quiet_dispatch_events l) = []).
  { induction l as [| c l IH]; [done | exact IH]. }
  by rewrite Hq, Hd.
Qed.

(** X14 on the sample document with a shell and a window manager that
    never fail, on a Wednesday at 9. *)
Lemma healthy_run_witness :
  main (quiet_env (Some (document sample_starts)))
       config_path_0 wednesday_9am initial
  = (Ok (),
     {| wants := ["b"; "d"]; pre_list := ["a"]; weekend_list := [];
        log := [EPrint (found_message config_path_0); EConnection]
               ++ log_events (pre_running_message "a") journal.LOG_INFO
               ++ [ESubprocessRun "a"]
               ++ dispatch_block "b" false
               ++ dispatch_block "d" false
               ++ [EMainQuit] |}).
Proof.
  refine (proj1 (healthy_run (quiet_env (Some (document sample_starts)))
                   config_path_0 wednesday_9am (document sample_starts)
                   sample_starts ["b"] (YSeq ["a"]) ["d"] []
                   eq_refl eq_refl eq_refl eq_refl _ _ _ _)).
  - reflexivity.
  - discriminate.
  - intros tr cmd. by exists "".
  - intros tr p. by exists ok_reply, [].
Defined.
